(** * AutismFriendlySite.jsx: preference state, effects and render tree

    A shallow embedding of the React component [AutismFriendlySite] and of
    its five child components.  The five [useState] cells become a record,
    the setters become functions on that record, [document.documentElement.style]
    becomes a finite map from property names to values, and the JSX a
    component returns becomes a tree of virtual nodes. *)

From Stdlib Require Import ZArith Bool Ascii String List.
From stdpp Require Import base decidable option list gmap strings pretty.

Local Open Scope string_scope.
Local Open Scope Z_scope.

(** ** The state cells (lines 22-26) *)

Record state : Type := State {
  theme : string;        (* "calm" | "ocean" | "contrast" *)
  fontSize : Z;
  reduceMotion : bool;
  simplified : bool;
  sparklesOn : bool
}.

(** [useState] initial values. *)
Definition initialState : state :=
  {| theme := "calm"; fontSize := 16; reduceMotion := false;
     simplified := false; sparklesOn := true |}.

(** A [useState] setter takes either the next value or an updater
    function of the previous value. *)
Inductive setStateAction (A : Type) : Type :=
| Value (v : A)
| Updater (f : A -> A).
Arguments Value {A} v.
Arguments Updater {A} f.

Definition nextValue {A : Type} (a : setStateAction A) (prev : A) : A :=
  match a with
  | Value v => v
  | Updater f => f prev
  end.

Definition setTheme (a : setStateAction string) (s : state) : state :=
  {| theme := nextValue a (theme s); fontSize := fontSize s;
     reduceMotion := reduceMotion s; simplified := simplified s;
     sparklesOn := sparklesOn s |}.

Definition setFontSize (a : setStateAction Z) (s : state) : state :=
  {| theme := theme s; fontSize := nextValue a (fontSize s);
     reduceMotion := reduceMotion s; simplified := simplified s;
     sparklesOn := sparklesOn s |}.

Definition setReduceMotion (a : setStateAction bool) (s : state) : state :=
  {| theme := theme s; fontSize := fontSize s;
     reduceMotion := nextValue a (reduceMotion s); simplified := simplified s;
     sparklesOn := sparklesOn s |}.

Definition setSimplified (a : setStateAction bool) (s : state) : state :=
  {| theme := theme s; fontSize := fontSize s;
     reduceMotion := reduceMotion s; simplified := nextValue a (simplified s);
     sparklesOn := sparklesOn s |}.

Definition setSparklesOn (a : setStateAction bool) (s : state) : state :=
  {| theme := theme s; fontSize := fontSize s;
     reduceMotion := reduceMotion s; simplified := simplified s;
     sparklesOn := nextValue a (sparklesOn s) |}.

(** ** Event handlers

    The part of the event object the handlers read: [e.target.checked]
    and [Number(e.target.value)].  The slider has the default step 1, so
    the number is an integer. *)
Record target : Type := Target {
  checked : bool;
  value : Z
}.

(** One constructor per handler closure in the JSX, in source order. *)
Inductive handler : Type :=
| OnChangeSimplified        (* line 72 *)
| OnChangeReduceMotion      (* line 82 *)
| OnClickSparkles           (* line 89 *)
| OnClickCalm               (* line 110 *)
| OnClickOcean              (* line 111 *)
| OnClickContrast           (* line 112 *)
| OnChangeFontSize          (* line 124 *)
| OnClickQuietMode          (* line 145 *)
| OnClickPlayfulMode.       (* line 146 *)

Definition handler_eqb (h1 h2 : handler) : bool :=
  match h1, h2 with
  | OnChangeSimplified, OnChangeSimplified
  | OnChangeReduceMotion, OnChangeReduceMotion
  | OnClickSparkles, OnClickSparkles
  | OnClickCalm, OnClickCalm
  | OnClickOcean, OnClickOcean
  | OnClickContrast, OnClickContrast
  | OnChangeFontSize, OnChangeFontSize
  | OnClickQuietMode, OnClickQuietMode
  | OnClickPlayfulMode, OnClickPlayfulMode => true
  | _, _ => false
  end.

(** Running a handler: the setter calls of its body, first call innermost. *)
Definition fire (h : handler) (e : target) (s : state) : state :=
  match h with
  | OnChangeSimplified => setSimplified (Value (checked e)) s
  | OnChangeReduceMotion => setReduceMotion (Value (checked e)) s
  | OnClickSparkles => setSparklesOn (Updater negb) s
  | OnClickCalm => setTheme (Value "calm") s
  | OnClickOcean => setTheme (Value "ocean") s
  | OnClickContrast => setTheme (Value "contrast") s
  | OnChangeFontSize => setFontSize (Value (value e)) s
  | OnClickQuietMode =>
      setSparklesOn (Value false)
        (setReduceMotion (Value true) (setSimplified (Value true) s))
  | OnClickPlayfulMode =>
      setSparklesOn (Value true)
        (setReduceMotion (Value false) (setSimplified (Value false) s))
  end.

(** ** Effects *)

(** [root.style]: custom properties of the document element. *)
Abbreviation style := (gmap string string).

Definition setProperty (name val : string) (root : style) : style :=
  <[name := val]> root.

(** Template literal [`${fontSize}px`]. *)
Definition px (n : Z) : string := pretty n +:+ "px".

(** Second effect (lines 34-52), run with the current [theme] and [fontSize]. *)
Definition themeEffect (s : state) (root : style) : style :=
  let root := setProperty "--site-font-size" (px (fontSize s)) root in
  if String.eqb (theme s) "calm" then
    setProperty "--accent" "#7cc0e8"
      (setProperty "--muted" "#52606d"
        (setProperty "--bg" "#fffef6" root))
  else if String.eqb (theme s) "ocean" then
    setProperty "--accent" "#00a6d6"
      (setProperty "--muted" "#0e3b57"
        (setProperty "--bg" "#eef9ff" root))
  else if String.eqb (theme s) "contrast" then
    setProperty "--accent" "#ffd60a"
      (setProperty "--muted" "#ffffff"
        (setProperty "--bg" "#000000" root))
  else root.

(** First effect (lines 28-32); [matches] is
    [window.matchMedia("(prefers-reduced-motion: reduce)").matches]. *)
Definition motionEffect (matches : bool) (s : state) : state :=
  if matches then setReduceMotion (Value true) s else s.

(** ** The mounted component

    What exists besides the state cells: the root style the second effect
    writes to, the dependency values [theme, fontSize] of its last run, and
    the host's current reduced-motion setting. *)
Record world : Type := World {
  cells : state;
  rootStyle : style;
  lastDeps : string * Z;
  prefersReducedMotion : bool
}.

Definition deps (s : state) : string * Z := (theme s, fontSize s).

Definition deps_eqb (d1 d2 : string * Z) : bool :=
  String.eqb (fst d1) (fst d2) && Z.eqb (snd d1) (snd d2).

(** Mount: first render from the initial values, then both effects run in
    order; the first has an empty dependency array and never runs again. *)
Definition mount (matches : bool) (root : style) : world :=
  let s0 := initialState in
  {| cells := motionEffect matches s0;
     rootStyle := themeEffect s0 root;
     lastDeps := deps s0;
     prefersReducedMotion := matches |}.

(** After a state change the component re-renders and the second effect
    runs again only if [theme] or [fontSize] changed. *)
Definition commit (s : state) (w : world) : world :=
  if deps_eqb (deps s) (lastDeps w) then
    {| cells := s; rootStyle := rootStyle w; lastDeps := lastDeps w;
       prefersReducedMotion := prefersReducedMotion w |}
  else
    {| cells := s; rootStyle := themeEffect s (rootStyle w); lastDeps := deps s;
       prefersReducedMotion := prefersReducedMotion w |}.

Inductive event : Type :=
| UserEvent (h : handler) (e : target)
| MediaChange (matches : bool).   (* the system setting changes; nothing listens *)

Definition step (w : world) (ev : event) : world :=
  match ev with
  | UserEvent h e => commit (fire h e (cells w)) w
  | MediaChange m =>
      {| cells := cells w; rootStyle := rootStyle w; lastDeps := lastDeps w;
         prefersReducedMotion := m |}
  end.

Definition run (w : world) (evs : list event) : world := fold_left step evs w.

(** ** Virtual nodes

    What a component returns.  A prop value is a string, a number, a
    boolean (a bare attribute such as [aria-hidden] is [true]), a style
    object or a handler.  A child is an element, a text, a number or the
    value [false] that [cond && <x/>] leaves behind. *)
Inductive propval : Type :=
| PStr (s : string)
| PNum (n : Z)
| PBool (b : bool)
| PStyle (decls : list (string * string))
| PHandler (h : handler).

#[local] Set Warnings "-register-all".
Inductive vnode : Type :=
| Element (tag : string) (props : list (string * propval)) (children : list vnode)
| TextNode (s : string)
| NumberNode (n : Z)
| FalseNode.

(** [c && x] for a boolean [c]. *)
Definition andThen (c : bool) (x : vnode) : vnode :=
  if c then x else FalseNode.

Definition className (v : string) : string * propval := ("className", PStr v).
Definition attr (name v : string) : string * propval := (name, PStr v).
Definition flag (name : string) : string * propval := (name, PBool true).
Definition styleProp (decls : list (string * string)) : string * propval :=
  ("style", PStyle decls).
Definition on (name : string) (h : handler) : string * propval :=
  (name, PHandler h).

Definition dq : string := String "034"%char EmptyString.
Definition nl : string := String "010"%char EmptyString.

(** ** Child components *)

Module Cat.
(** Lines 204-216. *)
Definition body : vnode :=
  Element "g" [attr "transform" "translate(10,10)"]
    [ Element "ellipse"
        [attr "cx" "60"; attr "cy" "80"; attr "rx" "40"; attr "ry" "20";
         attr "fill" "#ffd6e0"] [];
      Element "path"
        [attr "d" "M35 65 q12 -30 50 -10 q-10 10 -30 18 q-20 -2 -20 -8";
         attr "fill" "#fff"; attr "stroke" "#e76"; attr "strokeWidth" "1"] [];
      Element "path"
        [attr "d" "M45 48 l6 -12 l10 6"; attr "fill" "#ffd6e0";
         attr "stroke" "#e76"; attr "strokeWidth" "1"] [];
      Element "circle"
        [attr "cx" "55"; attr "cy" "70"; attr "r" "3"; attr "fill" "#222"] [];
      Element "circle"
        [attr "cx" "75"; attr "cy" "70"; attr "r" "3"; attr "fill" "#222"] [];
      Element "path"
        [attr "d" "M95 78 q20 -8 30 -20"; attr "stroke" "#ffd6e0";
         attr "strokeWidth" "8"; attr "fill" "none";
         attr "strokeLinecap" "round"] [] ].

(** Lines 220-224. *)
Definition sparkles : vnode :=
  Element "g" []
    [ Element "circle"
        [attr "cx" "30"; attr "cy" "20"; attr "r" "2"; attr "fill" "#fff3a1"] [];
      Element "rect"
        [attr "x" "40"; attr "y" "10"; attr "width" "3"; attr "height" "3";
         attr "rx" "0.5"] [];
      Element "circle" [attr "cx" "80"; attr "cy" "15"; attr "r" "1.8"] [] ].
End Cat.

Definition DecorativeCat (simplified reduceMotion sparklesOn : bool) : vnode :=
  Element "div"
    [className "absolute left-0 top-0 w-full h-full flex items-center";
     flag "aria-hidden"]
    [ Element "svg"
        [attr "viewBox" "0 0 200 120";
         attr "preserveAspectRatio" "xMidYMid meet";
         className "w-full h-full"]
        [ Cat.body;
          andThen (negb simplified && sparklesOn && negb reduceMotion)
            Cat.sparkles ] ].

Module Moon.
(** Lines 235-241. *)
Definition disc : vnode :=
  Element "circle"
    [attr "cx" "50"; attr "cy" "50"; attr "r" "30"; attr "fill" "url(#g)"] [].

Definition defs : vnode :=
  Element "defs" []
    [ Element "linearGradient" [attr "id" "g"; attr "x1" "0"; attr "x2" "1"]
        [ Element "stop" [attr "offset" "0%"; attr "stopColor" "#fff8c4"] [];
          Element "stop" [attr "offset" "100%"; attr "stopColor" "#ffd"] [] ] ].

(** Lines 243-245. *)
Definition highlight : vnode :=
  Element "g" []
    [ Element "circle"
        [attr "cx" "64"; attr "cy" "40"; attr "r" "4"; attr "fill" "#fff6"] [] ].
End Moon.

(** [reduceMotion] is received and not read. *)
Definition DecorativeMoon (simplified reduceMotion : bool) : vnode :=
  Element "div"
    [className "w-full h-full flex items-center justify-center";
     flag "aria-hidden"]
    [ Element "svg" [attr "viewBox" "0 0 100 100"; className "w-28 h-28"]
        [ Moon.disc;
          Moon.defs;
          andThen (negb simplified) Moon.highlight ] ].

Module Shark.
(** Lines 256-260. *)
Definition body : vnode :=
  Element "g" [attr "transform" "translate(10,20)"]
    [ Element "path"
        [attr "d" "M20 60 q40 -40 120 -10 q-20 10 -40 18 q-40 -4 -80 -8";
         attr "fill" "#cfefff"; attr "stroke" "#8fb"; attr "strokeWidth" "1"] [];
      Element "circle"
        [attr "cx" "90"; attr "cy" "50"; attr "r" "3"; attr "fill" "#123"] [];
      Element "path"
        [attr "d" "M110 55 l18 -10 l6 22"; attr "fill" "#cfefff";
         attr "stroke" "#8fb"; attr "strokeWidth" "1"] [] ].

(** Lines 263-266. *)
Definition sparkles : vnode :=
  Element "g" []
    [ Element "circle" [attr "cx" "150"; attr "cy" "20"; attr "r" "2"] [];
      Element "rect"
        [attr "x" "140"; attr "y" "30"; attr "width" "3"; attr "height" "3"] [] ].
End Shark.

Definition DecorativeShark (simplified reduceMotion sparklesOn : bool) : vnode :=
  Element "div"
    [className "absolute right-0 top-0 w-full h-full flex items-center justify-end";
     flag "aria-hidden"]
    [ Element "svg" [attr "viewBox" "0 0 200 120"; className "w-full h-full"]
        [ Shark.body;
          andThen (negb simplified && sparklesOn && negb reduceMotion)
            Shark.sparkles ] ].

Module Waves.
Definition frameA : string :=
  "M0 40 C150 80 350 0 500 40 C650 80 800 20 960 40 L960 120 L0 120 Z".
Definition frameB : string :=
  "M0 50 C150 20 350 80 500 50 C650 20 800 80 960 50 L960 120 L0 120 Z".

(** Returned when [simplified] (line 275). *)
Definition placeholder : vnode :=
  Element "div"
    [className "h-10 rounded-md bg-gradient-to-r from-transparent to-transparent"] [].

(** Lines 280-284. *)
Definition wave : vnode :=
  Element "path"
    [attr "d" frameA; attr "fill" "#bde7ff";
     styleProp [("transformOrigin", "center")]] [].

(** Lines 287-295; the line breaks inside [values] are folded to one
    space each, as the JSX transform does for string attributes. *)
Definition animate : vnode :=
  Element "animate"
    [attr "xlinkHref" "#wave"; attr "attributeName" "d"; attr "dur" "8s";
     attr "repeatCount" "indefinite";
     attr "values" (frameA +:+ "; " +:+ frameB +:+ "; " +:+ frameA)] [].
End Waves.

Definition OceanWaves (simplified reduceMotion : bool) : vnode :=
  if simplified then Waves.placeholder
  else
    Element "div" [className "h-20 relative overflow-hidden"]
      [ Element "svg"
          [attr "viewBox" "0 0 800 120"; attr "preserveAspectRatio" "none";
           className "w-full h-full"]
          [ Waves.wave;
            andThen (negb reduceMotion) Waves.animate ] ].

Module Sparkle.
(** The array [sparkles] of line 304: pairs (left, top). *)
Definition sparkles : list (string * string) :=
  [("10%", "10%"); ("30%", "25%"); ("70%", "15%"); ("85%", "60%")].

(** Lines 309-313, the callback of [sparkles.map((s, i) => ...)]. *)
Definition item (i : nat) (s : string * string) : vnode :=
  Element "div"
    [("key", PNum (Z.of_nat i));
     styleProp [("position", "fixed"); ("left", fst s); ("top", snd s);
                ("pointerEvents", "none")]]
    [ Element "svg"
        [attr "width" "28"; attr "height" "28"; attr "viewBox" "0 0 24 24";
         attr "fill" "none"; attr "xmlns" "http://www.w3.org/2000/svg"]
        [ Element "path"
            [attr "d" "M12 2 L13.6 8.4 L20 10 L13.6 11.6 L12 18 L10.4 11.6 L4 10 L10.4 8.4 Z";
             attr "fill" "var(--accent)"] [] ] ].

(** The template literal of lines 317-320. *)
Definition css : string :=
  nl +:+
  "          @keyframes floaty { 0% { transform: translateY(0px)} 50% { transform: translateY(-6px)} 100% { transform: translateY(0px)} }" +:+ nl +:+
  "          div[aria-hidden] > div > svg { animation: floaty 6s ease-in-out infinite; opacity: 0.9 }" +:+ nl +:+
  "        ".

Definition floaty : vnode := Element "style" [] [TextNode css].
End Sparkle.

Definition Sparkles (reduceMotion : bool) : vnode :=
  Element "div" [flag "aria-hidden"]
    (imap Sparkle.item Sparkle.sparkles
       ++ [andThen (negb reduceMotion) Sparkle.floaty]).

(** ** The page (lines 54-197) *)

Module Page.
Definition header (s : state) : vnode :=
  Element "header"
    [className "max-w-4xl mx-auto flex flex-col md:flex-row items-start md:items-center justify-between gap-4"]
    [ Element "div" []
        [ Element "h1"
            [className "text-3xl font-bold"; styleProp [("color", "var(--muted)")]]
            [TextNode "ðŸŒ™ Calm Cove â€” A Friendly Space"];
          Element "p" [className "mt-1 text-sm opacity-80"]
            [TextNode "A sensory-considerate small web page made for autistic users â€” adjustable and playful."] ];
      Element "div" [className "flex gap-3 items-center"]
        [ Element "label" [className "flex items-center gap-2"; flag "aria-hidden"]
            [ Element "input"
                [attr "type" "checkbox"; ("checked", PBool (simplified s));
                 on "onChange" OnChangeSimplified;
                 attr "aria-label" "Simplified mode"] [];
              TextNode "Simplified" ];
          Element "label" [className "flex items-center gap-2"]
            [ Element "input"
                [attr "type" "checkbox"; ("checked", PBool (reduceMotion s));
                 on "onChange" OnChangeReduceMotion;
                 attr "aria-label" "Reduce motion"] [];
              TextNode "Reduce motion" ];
          Element "button"
            [on "onClick" OnClickSparkles;
             className "px-3 py-1 rounded-lg shadow-sm";
             ("aria-pressed", PBool (sparklesOn s))]
            [TextNode (if sparklesOn s then "âœ¨ Sparkles On" else "âœ¨ Sparkles Off")] ] ].

Definition welcome (s : state) : vnode :=
  Element "section"
    [className "col-span-2 bg-white/60 rounded-2xl p-6 backdrop-blur-sm shadow-lg";
     styleProp [("border", "1px solid rgba(0,0,0,0.04)")]]
    [ Element "h2" [className "text-2xl font-semibold"] [TextNode "Welcome"];
      Element "p" [className "mt-3 leading-relaxed"]
        [TextNode ("This is a calm, accessible area. Use the controls to adjust font size, theme, motion, and simplification. The site intentionally avoids flashing or sudden loud animations â€” turn off visuals with "
                   +:+ dq +:+ "Simplified" +:+ dq +:+ " and enable "
                   +:+ dq +:+ "Reduce motion" +:+ dq +:+ " for the calmest experience.")];
      Element "div" [className "mt-6 flex flex-col md:flex-row gap-4"]
        [ Element "div" [className "flex-1"]
            [ Element "h3" [className "font-medium"] [TextNode "Themes"];
              Element "div" [className "mt-2 flex gap-2"]
                [ Element "button"
                    [className "px-3 py-1 rounded-md"; on "onClick" OnClickCalm]
                    [TextNode "Calm"];
                  Element "button"
                    [className "px-3 py-1 rounded-md"; on "onClick" OnClickOcean]
                    [TextNode "Ocean"];
                  Element "button"
                    [className "px-3 py-1 rounded-md"; on "onClick" OnClickContrast]
                    [TextNode "High contrast"] ] ];
          Element "div" [className "flex-1"]
            [ Element "h3" [className "font-medium"] [TextNode "Font size"];
              Element "input"
                [attr "aria-label" "Font size"; attr "type" "range";
                 ("min", PNum 14); ("max", PNum 28);
                 ("value", PNum (fontSize s));
                 on "onChange" OnChangeFontSize;
                 className "w-full"] [];
              Element "div" [className "text-sm mt-1"]
                [NumberNode (fontSize s); TextNode "px"] ] ];
      Element "div" [className "mt-6"]
        [ Element "h3" [className "font-medium"] [TextNode "Calm Activities"];
          Element "ul" [className "mt-2 list-disc list-inside leading-relaxed"]
            [ Element "li" [] [TextNode "Slow breathing with ocean visual aid"];
              Element "li" [] [TextNode "Soft interactive cat tracker (just for fun)"];
              Element "li" [] [TextNode "Moon gazing calming prompt"] ] ] ].

Definition controls : vnode :=
  Element "aside"
    [className "bg-white/50 rounded-2xl p-4 shadow-inner flex flex-col gap-4";
     attr "aria-label" "Controls and decorative area"]
    [ Element "div" []
        [ Element "h4" [className "font-semibold"] [TextNode "Quick Controls"];
          Element "div" [className "mt-2 grid grid-cols-1 gap-2"]
            [ Element "button"
                [on "onClick" OnClickQuietMode; className "w-full py-2 rounded"]
                [TextNode "Quiet Mode"];
              Element "button"
                [on "onClick" OnClickPlayfulMode; className "w-full py-2 rounded"]
                [TextNode "Playful Mode"] ] ];
      Element "div" []
        [ Element "h4" [className "font-semibold"] [TextNode "Sensory options"];
          Element "label" [className "flex items-center gap-2 mt-2"]
            [ Element "input"
                [attr "type" "checkbox"; ("checked", PBool true); flag "readOnly"] [];
              TextNode " No flashing content" ];
          Element "label" [className "flex items-center gap-2 mt-1"]
            [ Element "input"
                [attr "type" "checkbox"; ("checked", PBool false); flag "readOnly"] [];
              TextNode " Low volume (if audio present)" ] ];
      Element "div" []
        [ Element "h4" [className "font-semibold"] [TextNode "About"];
          Element "p" [className "text-sm mt-2"]
            [TextNode "Designed with input patterns commonly helpful for autistic users: clear layout, explicit controls, and sensory options. Customize further for your needs."] ] ].

Definition decorativeArea (s : state) : vnode :=
  Element "div" [className "col-span-3 mt-4 relative"]
    [ Element "div"
        [className "rounded-3xl overflow-hidden p-6 relative";
         styleProp [("background",
                     if String.eqb (theme s) "ocean" then "#dff6ff" else "transparent")]]
        [ Element "h3" [className "text-xl font-semibold mb-2"]
            [TextNode "Ocean & Friends"];
          Element "p" [className "text-sm mb-4"]
            [TextNode ("Interact with calm visuals below. Toggle "
                       +:+ dq +:+ "Simplified" +:+ dq +:+ " or "
                       +:+ dq +:+ "Reduce motion" +:+ dq +:+ " to remove movement.")];
          Element "div" [className "flex gap-4 items-center"]
            [ Element "div" [className "flex-1 min-h-[120px] relative"]
                [DecorativeCat (simplified s) (reduceMotion s) (sparklesOn s)];
              Element "div" [className "w-40 h-32"]
                [DecorativeMoon (simplified s) (reduceMotion s)];
              Element "div" [className "flex-1 min-h-[120px] relative"]
                [DecorativeShark (simplified s) (reduceMotion s) (sparklesOn s)] ];
          Element "div" [className "mt-6"]
            [OceanWaves (simplified s) (reduceMotion s)] ] ].

Definition footer : vnode :=
  Element "footer" [className "max-w-4xl mx-auto mt-8 text-center text-sm opacity-80"]
    [TextNode "Made with care â€¢ adjust settings to suit you"].
End Page.

(** The JSX returned by [AutismFriendlySite] for the current cells. *)
Definition render (s : state) : vnode :=
  Element "div"
    [className "min-h-screen p-6";
     styleProp [("background", "var(--bg)"); ("color", "var(--muted)");
                ("fontSize", "var(--site-font-size)")]]
    [ Page.header s;
      Element "main"
        [className "max-w-4xl mx-auto mt-6 grid grid-cols-1 md:grid-cols-3 gap-6"]
        [ Page.welcome s; Page.controls; Page.decorativeArea s ];
      Page.footer;
      andThen (negb (simplified s) && sparklesOn s) (Sparkles (reduceMotion s)) ].

(** ** Inspecting a render tree *)

Section ListEqb.
Context {A : Type} (eqb : A -> A -> bool).

Fixpoint list_eqb (l l' : list A) : bool :=
  match l, l' with
  | [], [] => true
  | x :: l, y :: l' => if eqb x y then list_eqb l l' else false
  | _, _ => false
  end.
End ListEqb.

Definition pair_eqb {A B : Type} (eqa : A -> A -> bool) (eqb : B -> B -> bool)
    (p q : A * B) : bool :=
  if eqa (fst p) (fst q) then eqb (snd p) (snd q) else false.

Definition propval_eqb (a b : propval) : bool :=
  match a, b with
  | PStr x, PStr y => String.eqb x y
  | PNum x, PNum y => Z.eqb x y
  | PBool x, PBool y => Bool.eqb x y
  | PStyle x, PStyle y => list_eqb (pair_eqb String.eqb String.eqb) x y
  | PHandler x, PHandler y => handler_eqb x y
  | _, _ => false
  end.

Fixpoint vnode_eqb (a b : vnode) : bool :=
  match a, b with
  | Element t p c, Element t' p' c' =>
      if String.eqb t t' then
        if list_eqb (pair_eqb String.eqb propval_eqb) p p'
        then list_eqb vnode_eqb c c' else false
      else false
  | TextNode x, TextNode y => String.eqb x y
  | NumberNode x, NumberNode y => Z.eqb x y
  | FalseNode, FalseNode => true
  | _, _ => false
  end.

(** [x] is [t] or sits somewhere below it. *)
Inductive subtree (x : vnode) : vnode -> Prop :=
| subtree_here : subtree x x
| subtree_below tag props children t :
    In t children -> subtree x t -> subtree x (Element tag props children).

Fixpoint occursb (x t : vnode) : bool :=
  if vnode_eqb x t then true
  else match t with
       | Element _ _ children => existsb (occursb x) children
       | _ => false
       end.

(** The decorative drawings of the page, by the JSX fragment that draws
    each. *)
Inductive decoration : Type :=
| CatBody | CatSparkles
| MoonDisc | MoonHighlight
| SharkBody | SharkSparkles
| OceanWave
| PageSparkles.

Definition drawing (d : decoration) : list vnode :=
  match d with
  | CatBody => [Cat.body]
  | CatSparkles => [Cat.sparkles]
  | MoonDisc => [Moon.disc]
  | MoonHighlight => [Moon.highlight]
  | SharkBody => [Shark.body]
  | SharkSparkles => [Shark.sparkles]
  | OceanWave => [Waves.wave]
  | PageSparkles => imap Sparkle.item Sparkle.sparkles
  end.

(** A decoration is visible when one of its fragments is in the tree. *)
Definition visibleIn (d : decoration) (t : vnode) : bool :=
  existsb (fun x => occursb x t) (drawing d).

Definition visible (d : decoration) (s : state) : bool :=
  visibleIn d (render s).

(** Animation carried by a node: an SVG animation element, a [style]
    element whose text declares keyframes or an [animation], an inline
    [animation...] style, or a Tailwind [animate-...] class. *)
Fixpoint contains (needle hay : string) : bool :=
  if String.prefix needle hay then true
  else match hay with
       | EmptyString => false
       | String _ hay' => contains needle hay'
       end.

Definition smilTags : list string :=
  ["animate"; "animateMotion"; "animateTransform"; "set"].

Definition cssAnimates (css : string) : bool :=
  contains "@keyframes" css || contains "animation" css.

Definition propAnimates (p : string * propval) : bool :=
  match snd p with
  | PStyle decls => existsb (fun d => String.prefix "animation" (fst d)) decls
  | PStr v => String.eqb (fst p) "className" && contains "animate-" v
  | _ => false
  end.

Definition animatesHere (t : vnode) : bool :=
  match t with
  | Element tag props children =>
      existsb (String.eqb tag) smilTags
      || (String.eqb tag "style"
          && existsb (fun c => match c with
                               | TextNode css => cssAnimates css
                               | _ => false
                               end) children)
      || existsb propAnimates props
  | _ => false
  end.

Fixpoint animated (t : vnode) : bool :=
  animatesHere t
  || match t with
     | Element _ _ children => existsb animated children
     | _ => false
     end.

(** The palette the page shell reads back from the root style. *)
Definition palette (root : style) : option string * option string * option string :=
  (root !! "--bg", root !! "--muted", root !! "--accent").

(** The slider's declared range (lines 121-122). *)
Definition sliderMin : Z := 14.
Definition sliderMax : Z := 28.

Definition clamp (lo hi n : Z) : Z := Z.max lo (Z.min hi n).

Definition inRange (n : Z) : Prop := sliderMin <= n <= sliderMax.

(** Every slider change of the trace carries a value in the declared range. *)
Definition sliderRespected (ev : event) : Prop :=
  match ev with
  | UserEvent OnChangeFontSize e => inRange (value e)
  | _ => True
  end.

Definition isUserEvent (ev : event) : bool :=
  match ev with
  | UserEvent _ _ => true
  | MediaChange _ => false
  end.

(** Induction on a tree with the hypothesis for every child. *)
Section VnodeInduction.
Variable P : vnode -> Prop.
Hypothesis HElement :
  forall tag props children, Forall P children -> P (Element tag props children).
Hypothesis HText : forall s, P (TextNode s).
Hypothesis HNumber : forall n, P (NumberNode n).
Hypothesis HFalse : P FalseNode.

Fixpoint vnode_rect_nested (t : vnode) : P t :=
  match t with
  | Element tag props children =>
      HElement tag props children
        ((fix all (l : list vnode) : Forall P l :=
            match l with
            | [] => @List.Forall_nil _ P
            | x :: l => @List.Forall_cons _ P x l (vnode_rect_nested x) (all l)
            end) children)
  | TextNode s => HText s
  | NumberNode n => HNumber n
  | FalseNode => HFalse
  end.
End VnodeInduction.

(** ** The tables the properties are stated against *)

Definition themes : list string := ["calm"; "ocean"; "contrast"].

(** Theme, then background, muted and accent colour. *)
Definition paletteTable : list (string * (string * string * string)) :=
  [ ("calm", ("#fffef6", "#52606d", "#7cc0e8"));
    ("ocean", ("#eef9ff", "#0e3b57", "#00a6d6"));
    ("contrast", ("#000000", "#ffffff", "#ffd60a")) ].

Definition fullPalette (colors : string * string * string)
    : option string * option string * option string :=
  (Some (fst (fst colors)), Some (snd (fst colors)), Some (snd colors)).

(** What holds of every world the component can reach: the second effect
    has run for the current [theme] and [fontSize]. *)
Definition settled (w : world) : Prop :=
  lastDeps w = deps (cells w)
  /\ rootStyle w !! "--site-font-size" = Some (px (fontSize (cells w)))
  /\ exists colors, In (theme (cells w), colors) paletteTable
                  /\ palette (rootStyle w) = fullPalette colors.

(** Two worlds that differ at most in the host's motion setting. *)
Definition sameApp (w w' : world) : Prop :=
  cells w = cells w' /\ rootStyle w = rootStyle w' /\ lastDeps w = lastDeps w'.

(** The visibility rule in the words of the specification: visible iff
    not simplified, the sparkle class also needing [decorationsEnabled]. *)
Definition sparkleClass (d : decoration) : bool :=
  match d with
  | CatSparkles | SharkSparkles | PageSparkles => true
  | _ => false
  end.

Definition specVisible (d : decoration) (s : state) : bool :=
  negb (simplified s) && (if sparkleClass d then sparklesOn s else true).

(** A slider change carrying [n]; the host delivers such an event only for
    [n] in the rendered range, see [deliver]. *)
Definition slide (n : Z) : event := UserEvent OnChangeFontSize (Target false n).
Definition click (h : handler) : event := UserEvent h (Target false 0).

(** ** Queries on the render tree *)

(** First prop of that name, as React reads [props.name]. *)
Definition propOf (name : string) (props : list (string * propval)) : option propval :=
  snd <$> List.find (fun q => String.eqb (fst q) name) props.

Definition ariaHidden (props : list (string * propval)) : bool :=
  match propOf "aria-hidden" props with
  | Some (PBool true) => true
  | _ => false
  end.

Definition handlersHere (props : list (string * propval)) : list handler :=
  flat_map (fun q => match snd q with PHandler h => [h] | _ => [] end) props.

(** The handlers attached in a tree, in document order. *)
Fixpoint handlersOf (t : vnode) : list handler :=
  match t with
  | Element _ props children => handlersHere props ++ flat_map handlersOf children
  | _ => []
  end.

(** The handlers on elements that neither are nor sit below an
    [aria-hidden] element. *)
Fixpoint exposedHandlers (t : vnode) : list handler :=
  match t with
  | Element _ props children =>
      if ariaHidden props then []
      else handlersHere props ++ flat_map exposedHandlers children
  | _ => []
  end.

(** [x] occurs in [t] outside every [aria-hidden] subtree. *)
Fixpoint exposedb (x t : vnode) : bool :=
  match t with
  | Element _ props children =>
      if ariaHidden props then false
      else if vnode_eqb x t then true
      else existsb (exposedb x) children
  | _ => vnode_eqb x t
  end.

Definition exposed (d : decoration) (s : state) : bool :=
  existsb (fun x => exposedb x (render s)) (drawing d).

(** First element, in document order, whose tag and props satisfy [p]. *)
Fixpoint findElement (p : string -> list (string * propval) -> bool) (t : vnode)
    : option vnode :=
  match t with
  | Element tag props children =>
      if p tag props then Some t
      else (fix first (l : list vnode) : option vnode :=
              match l with
              | [] => None
              | x :: l => match findElement p x with
                          | Some r => Some r
                          | None => first l
                          end
              end) children
  | _ => None
  end.

Definition hasLabel (label : string) (tag : string)
    (props : list (string * propval)) : bool :=
  match propOf "aria-label" props with
  | Some (PStr v) => String.eqb v label
  | _ => false
  end.

Definition hasHandler (h : handler) (tag : string)
    (props : list (string * propval)) : bool :=
  existsb (handler_eqb h) (handlersHere props).

Definition boolProp (name : string) (t : vnode) : option bool :=
  match t with
  | Element _ props _ =>
      match propOf name props with Some (PBool b) => Some b | _ => None end
  | _ => None
  end.

Definition numProp (name : string) (t : vnode) : option Z :=
  match t with
  | Element _ props _ =>
      match propOf name props with Some (PNum n) => Some n | _ => None end
  | _ => None
  end.

(** What the four controls display: slider value, the two checkboxes,
    the pressed state of the sparkles button. *)
Definition readControls (t : vnode) : option (Z * bool * bool * bool) :=
  fs ← findElement (hasLabel "Font size") t ≫= numProp "value";
  rm ← findElement (hasLabel "Reduce motion") t ≫= boolProp "checked";
  si ← findElement (hasLabel "Simplified mode") t ≫= boolProp "checked";
  sp ← findElement (hasHandler OnClickSparkles) t ≫= boolProp "aria-pressed";
  Some (fs, rm, si, sp).

(** ** The cells a handler writes *)

Inductive cell : Type :=
| ThemeCell | FontSizeCell | ReduceMotionCell | SimplifiedCell | SparklesOnCell.

Inductive cellValue : Type :=
| StrVal (v : string)
| NumVal (n : Z)
| BoolVal (b : bool).

Definition readCell (c : cell) (s : state) : cellValue :=
  match c with
  | ThemeCell => StrVal (theme s)
  | FontSizeCell => NumVal (fontSize s)
  | ReduceMotionCell => BoolVal (reduceMotion s)
  | SimplifiedCell => BoolVal (simplified s)
  | SparklesOnCell => BoolVal (sparklesOn s)
  end.

Definition cell_eqb (c1 c2 : cell) : bool :=
  match c1, c2 with
  | ThemeCell, ThemeCell
  | FontSizeCell, FontSizeCell
  | ReduceMotionCell, ReduceMotionCell
  | SimplifiedCell, SimplifiedCell
  | SparklesOnCell, SparklesOnCell => true
  | _, _ => false
  end.

(** The setters each handler body calls. *)
Definition writes (h : handler) : list cell :=
  match h with
  | OnChangeSimplified => [SimplifiedCell]
  | OnChangeReduceMotion => [ReduceMotionCell]
  | OnClickSparkles => [SparklesOnCell]
  | OnClickCalm | OnClickOcean | OnClickContrast => [ThemeCell]
  | OnChangeFontSize => [FontSizeCell]
  | OnClickQuietMode | OnClickPlayfulMode =>
      [SimplifiedCell; ReduceMotionCell; SparklesOnCell]
  end.

Definition writesCell (h : handler) (c : cell) : bool :=
  existsb (cell_eqb c) (writes h).

Definition disjointWrites (h1 h2 : handler) : bool :=
  forallb (fun c => negb (writesCell h2 c)) (writes h1).

Definition coveredWrites (h1 h2 : handler) : bool :=
  forallb (writesCell h2) (writes h1).

(** A handler that passes an updater function, not a value. *)
Definition usesUpdater (h : handler) : bool :=
  match h with
  | OnClickSparkles => true
  | _ => false
  end.

(** ** Root style *)

(** The custom properties the second effect can write. *)
Definition effectVars : list string :=
  ["--site-font-size"; "--bg"; "--muted"; "--accent"].

(** What holds of every world reached from a mount on [root], with the
    root style given in closed form. *)
Definition tracked (root : style) (w : world) : Prop :=
  In (theme (cells w)) themes
  /\ lastDeps w = deps (cells w)
  /\ rootStyle w = themeEffect (cells w) root.

(** The button that sets a theme name (lines 110-112). *)
Definition themeButton (th : string) : handler :=
  if String.eqb th "calm" then OnClickCalm
  else if String.eqb th "ocean" then OnClickOcean
  else OnClickContrast.

(** One way from the cells [from] to the cells [to]: theme button, slider,
    the two checkboxes, and the sparkles button when its cell differs.  It
    is a trace the page can receive when the font size of [to] is in the
    slider's range. *)
Definition route (from to : state) : list event :=
  [ UserEvent (themeButton (theme to)) (Target false 0);
    UserEvent OnChangeFontSize (Target false (fontSize to));
    UserEvent OnChangeSimplified (Target (simplified to) 0);
    UserEvent OnChangeReduceMotion (Target (reduceMotion to) 0) ]
  ++ (if Bool.eqb (sparklesOn from) (sparklesOn to) then []
      else [UserEvent OnClickSparkles (Target false 0)]).

(** ** The host's controls

    What a user can do to the page.  The slider is an [input] of type
    [range]: whatever position is asked for, the host reports a value
    sanitised to the [min] and [max] props the element was rendered with,
    and that value is what [e.target.value] carries. *)
Inductive button : Type :=
| SparklesButton | CalmButton | OceanButton | ContrastButton
| QuietModeButton | PlayfulModeButton.

Definition onClick (b : button) : handler :=
  match b with
  | SparklesButton => OnClickSparkles
  | CalmButton => OnClickCalm
  | OceanButton => OnClickOcean
  | ContrastButton => OnClickContrast
  | QuietModeButton => OnClickQuietMode
  | PlayfulModeButton => OnClickPlayfulMode
  end.

Inductive gesture : Type :=
| MoveSlider (n : Z)
| TickSimplified (b : bool)
| TickReduceMotion (b : bool)
| Press (b : button)
| SystemMotion (matches : bool).

Definition strProp (name : string) (t : vnode) : option string :=
  match t with
  | Element _ props _ =>
      match propOf name props with Some (PStr v) => Some v | _ => None end
  | _ => None
  end.

(** The value the element carrying the font-size handler reports when
    asked for [n]: clamped to its [min] and [max] if it is a range input,
    [n] itself otherwise. *)
Definition rangeValue (t : vnode) (n : Z) : option Z :=
  el ← findElement (hasHandler OnChangeFontSize) t;
  match strProp "type" el, numProp "min" el, numProp "max" el with
  | Some "range", Some lo, Some hi => Some (clamp lo hi n)
  | _, _, _ => Some n
  end.

(** The event a gesture raises on the page as currently rendered. *)
Definition deliver (w : world) (g : gesture) : option event :=
  match g with
  | MoveSlider n =>
      v ← rangeValue (render (cells w)) n;
      Some (UserEvent OnChangeFontSize (Target false v))
  | TickSimplified b => Some (UserEvent OnChangeSimplified (Target b 0))
  | TickReduceMotion b => Some (UserEvent OnChangeReduceMotion (Target b 0))
  | Press b => Some (UserEvent (onClick b) (Target false 0))
  | SystemMotion m => Some (MediaChange m)
  end.

Definition act (w : world) (g : gesture) : world :=
  match deliver w g with
  | Some ev => step w ev
  | None => w
  end.

Definition perform (w : world) (gs : list gesture) : world := fold_left act gs w.

(** * Properties *)

(** ** Equality and occurrence tests are exact *)

Lemma list_eqb_eq {A : Type} (eqb : A -> A -> bool) (l l' : list A) :
  Forall (fun x => forall y, eqb x y = true <-> x = y) l ->
  list_eqb eqb l l' = true <-> l = l'.
Proof.
  intros H. revert l'. induction H as [|x l Hx _ IH]; intros [|y l']; simpl;
    try (split; [discriminate | congruence]); try tauto.
  destruct (eqb x y) eqn:E.
  - apply Hx in E. subst y. rewrite IH. split; congruence.
  - split; [discriminate|]. intros [= Hxy _]. apply Hx in Hxy. congruence.
Qed.

Lemma handler_eqb_eq (h1 h2 : handler) : handler_eqb h1 h2 = true <-> h1 = h2.
Proof. destruct h1, h2; simpl; split; congruence. Qed.

Lemma pair_eqb_eq {A B : Type} (eqa : A -> A -> bool) (eqb : B -> B -> bool)
    (p q : A * B) :
  (forall y, eqa (fst p) y = true <-> fst p = y) ->
  (forall y, eqb (snd p) y = true <-> snd p = y) ->
  pair_eqb eqa eqb p q = true <-> p = q.
Proof.
  destruct p as [a b], q as [a' b']. unfold pair_eqb. simpl. intros Ha Hb.
  destruct (eqa a a') eqn:E.
  - apply Ha in E as ->. rewrite Hb. split; congruence.
  - split; [discriminate|]. intros [= Haa _]. apply Ha in Haa. congruence.
Qed.

Lemma propval_eqb_eq (a b : propval) : propval_eqb a b = true <-> a = b.
Proof.
  destruct a, b; simpl; try (split; [discriminate | congruence]).
  - rewrite String.eqb_eq. split; congruence.
  - rewrite Z.eqb_eq. split; congruence.
  - rewrite Bool.eqb_true_iff. split; congruence.
  - rewrite list_eqb_eq; [split; congruence|].
    apply Forall_forall. intros p _ q.
    apply pair_eqb_eq; intros y; apply String.eqb_eq.
  - rewrite handler_eqb_eq. split; congruence.
Qed.

Lemma props_eqb_eq (p p' : list (string * propval)) :
  list_eqb (pair_eqb String.eqb propval_eqb) p p' = true <-> p = p'.
Proof.
  apply list_eqb_eq, Forall_forall. intros x _ y.
  apply pair_eqb_eq; intros z; [apply String.eqb_eq | apply propval_eqb_eq].
Qed.

Lemma vnode_eqb_eq (a b : vnode) : vnode_eqb a b = true <-> a = b.
Proof.
  revert b. induction a as [tag props children IH| | |] using vnode_rect_nested;
    intros [tag' props' children'| | |]; simpl;
    try (split; [discriminate | congruence]).
  - destruct (String.eqb tag tag') eqn:Et.
    + apply String.eqb_eq in Et as ->.
      destruct (list_eqb _ props props') eqn:Ep.
      * apply props_eqb_eq in Ep as ->.
        rewrite (list_eqb_eq vnode_eqb children children' IH).
        split; congruence.
      * split; [discriminate|]. intros [= Hp _].
        apply props_eqb_eq in Hp. congruence.
    + split; [discriminate|]. intros [= Ht _ _].
      apply String.eqb_eq in Ht. congruence.
  - rewrite String.eqb_eq. split; congruence.
  - rewrite Z.eqb_eq. split; congruence.
  - tauto.
Qed.

Lemma occursb_subtree (x t : vnode) : occursb x t = true <-> subtree x t.
Proof.
  induction t as [tag props children IH| | |] using vnode_rect_nested; simpl;
    destruct (vnode_eqb x _) eqn:E;
    try (apply vnode_eqb_eq in E as ->; split; [constructor | reflexivity]).
  - rewrite existsb_exists. split.
    + intros (t & Hin & Ht). apply (subtree_below x _ _ _ t Hin).
      rewrite Forall_forall in IH. apply (IH t); [|exact Ht].
      apply list_elem_of_In, Hin.
    + intros H. inversion H as [Heq | ? ? ? t Hin Ht]; subst.
      * assert (vnode_eqb (Element tag props children) (Element tag props children) = true)
          by (apply vnode_eqb_eq; reflexivity). congruence.
      * exists t. split; [exact Hin|]. rewrite Forall_forall in IH.
        apply (IH t); [apply list_elem_of_In, Hin | exact Ht].
  - split; [discriminate|]. intros H. inversion H; subst.
    assert (vnode_eqb (TextNode s) (TextNode s) = true) by (apply vnode_eqb_eq; reflexivity).
    congruence.
  - split; [discriminate|]. intros H. inversion H; subst.
    assert (vnode_eqb (NumberNode n) (NumberNode n) = true) by (apply vnode_eqb_eq; reflexivity).
    congruence.
  - split; [discriminate|]. intros H. inversion H; subst.
    assert (vnode_eqb FalseNode FalseNode = true) by (apply vnode_eqb_eq; reflexivity).
    congruence.
Qed.

Lemma visible_subtree (d : decoration) (s : state) :
  visible d s = true <-> exists x, In x (drawing d) /\ subtree x (render s).
Proof.
  unfold visible, visibleIn. rewrite existsb_exists.
  split; intros (x & Hin & H); exists x; (split; [exact Hin|]);
    apply occursb_subtree; exact H.
Qed.

(** ** Effects and reachable worlds *)

Lemma themeEffect_font (s : state) (root : style) :
  themeEffect s root !! "--site-font-size" = Some (px (fontSize s)).
Proof.
  unfold themeEffect, setProperty.
  repeat case_match; by simplify_map_eq.
Qed.

Lemma themeEffect_row (s : state) (root : style) colors :
  In (theme s, colors) paletteTable ->
  palette (themeEffect s root) = fullPalette colors.
Proof.
  unfold paletteTable. simpl.
  intros [H|[H|[H|[]]]]; injection H as Hth <-;
    unfold themeEffect, palette, setProperty; rewrite <- Hth; simpl;
    by simplify_map_eq.
Qed.

Lemma deps_eqb_eq (d1 d2 : string * Z) : deps_eqb d1 d2 = true <-> d1 = d2.
Proof.
  destruct d1, d2. unfold deps_eqb. simpl.
  rewrite andb_true_iff, String.eqb_eq, Z.eqb_eq. split; [intros []|intros [=]]; by subst.
Qed.

Lemma fire_theme (h : handler) (e : target) (s : state) :
  theme (fire h e s) = theme s \/ In (theme (fire h e s)) themes.
Proof. destruct h; simpl; auto. Qed.

Lemma table_covers (th : string) :
  In th themes -> exists colors, In (th, colors) paletteTable.
Proof.
  unfold themes, paletteTable. simpl.
  intros [<-|[<-|[<-|[]]]]; eexists; eauto.
Qed.

Lemma mount_settled (m : bool) (root : style) : settled (mount m root).
Proof.
  unfold settled, mount. simpl. split; [|split].
  - by destruct m.
  - rewrite themeEffect_font. by destruct m.
  - exists ("#fffef6", "#52606d", "#7cc0e8"). split.
    + destruct m; simpl; auto.
    + apply themeEffect_row. simpl. auto.
Qed.

Lemma step_settled (w : world) (ev : event) : settled w -> settled (step w ev).
Proof.
  intros (Hd & Hf & colors & Hin & Hp). destruct ev as [h e|m].
  - cbn [step]. unfold commit. destruct (deps_eqb _ _) eqn:E.
    + apply deps_eqb_eq in E. rewrite Hd in E. injection E as Eth Efs.
      unfold settled. cbn [cells rootStyle lastDeps]. rewrite Eth, Efs.
      split; [|split]; [|done|by exists colors].
      rewrite Hd. unfold deps. by rewrite Eth, Efs.
    + unfold settled. cbn [cells rootStyle lastDeps].
      split; [done|]. split; [apply themeEffect_font|].
      destruct (fire_theme h e (cells w)) as [Eth|Hth].
      * exists colors. rewrite Eth. split; [done|].
        apply themeEffect_row. by rewrite Eth.
      * destruct (table_covers _ Hth) as [c Hc]. exists c. split; [done|].
        by apply themeEffect_row.
  - unfold settled. cbn [step cells rootStyle lastDeps].
    split; [done|]. split; [done|]. by exists colors.
Qed.

Lemma run_settled (w : world) (evs : list event) : settled w -> settled (run w evs).
Proof.
  revert w. induction evs as [|ev evs IH]; intros w Hw; simpl; [done|].
  apply IH, step_settled, Hw.
Qed.

Lemma run_app (w : world) (evs evs' : list event) :
  run w (evs ++ evs') = run (run w evs) evs'.
Proof. apply fold_left_app. Qed.

Lemma step_sameApp (w w' : world) (ev : event) :
  sameApp w w' -> sameApp (step w ev) (step w' ev).
Proof.
  intros (Hc & Hr & Hd). destruct ev as [h e|m]; unfold sameApp; simpl; [|done].
  unfold commit. rewrite Hc, Hr, Hd. by destruct (deps_eqb _ _).
Qed.

Lemma run_ignores_media (w w' : world) (evs : list event) :
  sameApp w w' -> sameApp (run w evs) (run w' (List.filter isUserEvent evs)).
Proof.
  revert w w'. induction evs as [|ev evs IH]; intros w w' H; [done|].
  destruct ev as [h e|m]; cbn [List.filter isUserEvent].
  - apply (IH (step w (UserEvent h e)) (step w' (UserEvent h e))).
    by apply step_sameApp.
  - apply (IH (step w (MediaChange m)) w').
    destruct H as (Hc & Hr & Hd). by unfold sameApp.
Qed.

Lemma cells_commit (s : state) (w : world) : cells (commit s w) = s.
Proof. unfold commit. by destruct (deps_eqb _ _). Qed.

Lemma fire_fontSize (h : handler) (e : target) (s : state) :
  fontSize (fire h e s) = match h with
                          | OnChangeFontSize => value e
                          | _ => fontSize s
                          end.
Proof. by destruct h. Qed.

Lemma clamp_in_range (n : Z) : inRange n -> clamp sliderMin sliderMax n = n.
Proof. unfold inRange, clamp, sliderMin, sliderMax. lia. Qed.

Lemma run_inRange (w : world) (evs : list event) :
  inRange (fontSize (cells w)) -> Forall sliderRespected evs ->
  inRange (fontSize (cells (run w evs))).
Proof.
  intros Hw Hevs. revert w Hw.
  induction Hevs as [|ev evs Hev _ IH]; intros w Hw; [done|].
  apply (IH (step w ev)). destruct ev as [h e|m]; cbn [step cells]; [|done].
  rewrite cells_commit, fire_fontSize. by destruct h.
Qed.

(** ** Font size (C1) *)

Lemma rangeValue_render (s : state) (n : Z) :
  rangeValue (render s) n = Some (clamp sliderMin sliderMax n).
Proof. destruct s as [th fs rm si sp]. destruct rm, si, sp; by vm_compute. Qed.

Lemma clamp_inRange (n : Z) : inRange (clamp sliderMin sliderMax n).
Proof. unfold inRange, clamp, sliderMin, sliderMax. lia. Qed.

Lemma deliver_slider (w : world) (n : Z) :
  deliver w (MoveSlider n)
    = Some (UserEvent OnChangeFontSize (Target false (clamp sliderMin sliderMax n))).
Proof. cbn [deliver]. by rewrite rangeValue_render. Qed.

Lemma deliver_respected (w : world) (g : gesture) (ev : event) :
  deliver w g = Some ev -> sliderRespected ev.
Proof.
  destruct g as [n|b|b|b|m].
  - rewrite deliver_slider. intros [= <-]. apply clamp_inRange.
  - by intros [= <-].
  - by intros [= <-].
  - intros [= <-]. by destruct b.
  - by intros [= <-].
Qed.

(** What the page goes through under gestures is a trace of events whose
    slider values are all in range. *)
Lemma perform_is_run (w : world) (gs : list gesture) :
  exists evs, Forall sliderRespected evs /\ perform w gs = run w evs.
Proof.
  revert w. induction gs as [|g gs IH]; intros w.
  - exists []. by split.
  - cbn [perform fold_left]. fold (perform (act w g) gs).
    destruct (IH (act w g)) as (evs & Hevs & ->). unfold act.
    destruct (deliver w g) as [ev|] eqn:E.
    + exists (ev :: evs). split; [|done].
      constructor; [by apply (deliver_respected w g)|done].
    + exists evs. by split.
Qed.

(** C1: whatever number n the slider is asked for, in any world the page
    can be in, the applied font size is n clamped to [14, 28], and that is
    what the root style receives; after every sequence of operations the
    font size is within [14, 28].  The clamp is the host's, on the [min]
    and [max] the range input is rendered with. *)
Theorem fontScale_clamped_by_slider
    (m : bool) (root : style) (gs : list gesture) (n : Z) :
  fontSize (cells (act (perform (mount m root) gs) (MoveSlider n)))
    = clamp sliderMin sliderMax n
  /\ rootStyle (act (perform (mount m root) gs) (MoveSlider n))
       !! "--site-font-size" = Some (px (clamp sliderMin sliderMax n))
  /\ inRange (fontSize (cells (perform (mount m root) gs))).
Proof.
  destruct (perform_is_run (mount m root) gs) as (evs & Hevs & ->).
  unfold act. rewrite deliver_slider.
  pose proof (run_settled _ evs (mount_settled m root)) as Hw.
  pose proof (step_settled _
    (UserEvent OnChangeFontSize (Target false (clamp sliderMin sliderMax n))) Hw)
    as (_ & Hfont & _).
  rewrite Hfont. cbn [step]. rewrite cells_commit. cbn.
  split; [done|]. split; [done|].
  apply run_inRange; [|done]. destruct m; by vm_compute.
Qed.

(** The scenario of a fresh page, "Ocean", then the slider asked for 40:
    ocean palette, font size 28. *)
Lemma ocean_then_slider_40 :
  fontSize (cells (perform (mount false ∅) [Press OceanButton; MoveSlider 40])) = 28
  /\ rootStyle (perform (mount false ∅) [Press OceanButton; MoveSlider 40])
       !! "--site-font-size" = Some "28px"
  /\ palette (rootStyle (perform (mount false ∅) [Press OceanButton; MoveSlider 40]))
     = (Some "#eef9ff", Some "#0e3b57", Some "#00a6d6").
Proof. by vm_compute. Qed.

(** ** Decorations (C2, C3, C4) *)

(** The conditional fragments of each child component. *)
Lemma OceanWaves_simplified (rm : bool) : OceanWaves true rm = Waves.placeholder.
Proof. reflexivity. Qed.

Lemma animated_OceanWaves (si rm : bool) :
  animated (OceanWaves si rm) = negb si && negb rm.
Proof. by destruct si, rm. Qed.

Lemma animated_Sparkles (rm : bool) : animated (Sparkles rm) = negb rm.
Proof. by destruct rm. Qed.

Lemma animated_static_drawings (si rm sp : bool) :
  animated (DecorativeCat si rm sp) = false
  /\ animated (DecorativeMoon si rm) = false
  /\ animated (DecorativeShark si rm sp) = false.
Proof. by destruct si, rm, sp. Qed.

(** C2, the code at the failing input: after "Quiet Mode" on a fresh page
    the state is simplified and the cat drawing is still in the render
    tree, and so are the moon disc and the shark drawing, where the claim
    and the file's own header have every decorative drawing hidden. *)
Lemma cat_drawn_when_simplified :
  simplified (fire OnClickQuietMode (Target false 0) initialState) = true
  /\ visible CatBody (fire OnClickQuietMode (Target false 0) initialState) = true
  /\ visible MoonDisc (fire OnClickQuietMode (Target false 0) initialState) = true
  /\ visible SharkBody (fire OnClickQuietMode (Target false 0) initialState) = true.
Proof. by vm_compute. Qed.

(** C3, as stated, fails: right after a mount under a reduced-motion host
    (not simplified, sparkles on, reduceMotion on) the sparkle groups of
    the cat and of the shark are absent although the stated rule makes
    them visible. *)
Lemma visibility_rule_broken :
  visible CatSparkles (cells (mount true ∅)) = false
  /\ specVisible CatSparkles (cells (mount true ∅)) = true
  /\ visible SharkSparkles (cells (mount true ∅)) = false
  /\ specVisible SharkSparkles (cells (mount true ∅)) = true.
Proof. by vm_compute. Qed.

(** C3, amended: for every state, the moon highlight and the ocean wave
    are visible iff simplified is false; the page sparkles iff simplified
    is false and sparklesOn is true; the sparkle groups of the cat and of
    the shark iff simplified is false, sparklesOn is true and reduceMotion
    is false.  For the ocean wave and the page sparkles reduceMotion gates
    only the animation. *)
Theorem decoration_visibility (s : state) :
  visible MoonHighlight s = negb (simplified s)
  /\ visible OceanWave s = negb (simplified s)
  /\ visible PageSparkles s = negb (simplified s) && sparklesOn s
  /\ visible CatSparkles s
       = negb (simplified s) && sparklesOn s && negb (reduceMotion s)
  /\ visible SharkSparkles s
       = negb (simplified s) && sparklesOn s && negb (reduceMotion s)
  /\ animated (OceanWaves (simplified s) (reduceMotion s))
       = visible OceanWave s && negb (reduceMotion s)
  /\ animated (Sparkles (reduceMotion s)) = negb (reduceMotion s).
Proof.
  destruct s as [th fs rm si sp]. cbn [simplified reduceMotion sparklesOn].
  destruct rm, si, sp; by vm_compute.
Qed.

(** C4: for every state with reduceMotion = true, no node of the render
    tree carries an animation: no SVG animation element, no style element
    with keyframes, no inline animation style, no animate- class. *)
Theorem reduceMotion_stops_animation (s : state) :
  reduceMotion s = true -> animated (render s) = false.
Proof.
  destruct s as [th fs rm si sp]. cbn [reduceMotion]. intros ->.
  destruct si, sp; by vm_compute.
Qed.

Lemma reduceMotion_stops_animation_witness :
  reduceMotion (State "calm" 16 true false true) = true
  /\ visible OceanWave (State "calm" 16 true false true) = true
  /\ visible PageSparkles (State "calm" 16 true false true) = true
  /\ animated (render (State "calm" 16 true false true)) = false.
Proof.
  split; [reflexivity|]. split; [by vm_compute|]. split; [by vm_compute|].
  exact (reduceMotion_stops_animation (State "calm" 16 true false true) eq_refl).
Defined.

(** With motion allowed the same page does animate: the test is not idle. *)
Lemma playful_page_animates : animated (render initialState) = true.
Proof. by vm_compute. Qed.

(** ** Palette (C5, C10) *)

(** C5: the palette the theme effect leaves in the root style is the fixed
    row of the theme, whatever the other cells and the earlier root style
    are; every world reachable from a mount holds a full row of the table
    for its current theme. *)
Theorem palette_fixed_by_theme
    (fs : Z) (rm si sp : bool) (root : style) (m : bool) (evs : list event) :
  palette (themeEffect (State "calm" fs rm si sp) root)
    = (Some "#fffef6", Some "#52606d", Some "#7cc0e8")
  /\ palette (themeEffect (State "ocean" fs rm si sp) root)
       = (Some "#eef9ff", Some "#0e3b57", Some "#00a6d6")
  /\ palette (themeEffect (State "contrast" fs rm si sp) root)
       = (Some "#000000", Some "#ffffff", Some "#ffd60a")
  /\ exists colors,
       In (theme (cells (run (mount m root) evs)), colors) paletteTable
       /\ palette (rootStyle (run (mount m root) evs)) = fullPalette colors.
Proof.
  split; [|split; [|split]].
  - apply (themeEffect_row _ _ ("#fffef6", "#52606d", "#7cc0e8")). simpl. auto.
  - apply (themeEffect_row _ _ ("#eef9ff", "#0e3b57", "#00a6d6")). simpl. auto.
  - apply (themeEffect_row _ _ ("#000000", "#ffffff", "#ffd60a")). simpl. auto.
  - apply (run_settled _ evs (mount_settled m root)).
Qed.

(** C10: with a theme outside the three names the effect writes the
    font-size variable and nothing else, so the three palette variables
    keep what they held. *)
Theorem unknown_theme_keeps_palette (s : state) (root : style) :
  ~ In (theme s) themes ->
  themeEffect s root = setProperty "--site-font-size" (px (fontSize s)) root
  /\ palette (themeEffect s root) = palette root
  /\ themeEffect s root !! "--site-font-size" = Some (px (fontSize s)).
Proof.
  intros Hth.
  assert (E : themeEffect s root
              = setProperty "--site-font-size" (px (fontSize s)) root).
  { unfold themeEffect.
    destruct (String.eqb_spec (theme s) "calm") as [H|_];
      [exfalso; apply Hth; rewrite H; simpl; auto|].
    destruct (String.eqb_spec (theme s) "ocean") as [H|_];
      [exfalso; apply Hth; rewrite H; simpl; auto|].
    destruct (String.eqb_spec (theme s) "contrast") as [H|_];
      [exfalso; apply Hth; rewrite H; simpl; auto|].
    reflexivity. }
  split; [exact E|]. split; [|apply themeEffect_font].
  rewrite E. unfold palette, setProperty. by simplify_map_eq.
Qed.

Lemma unknown_theme_keeps_palette_witness :
  ~ In (theme (State "sunset" 18 false false true)) themes
  /\ palette (themeEffect (State "sunset" 18 false false true)
                (themeEffect (State "ocean" 16 false false true) ∅))
     = palette (themeEffect (State "ocean" 16 false false true) ∅).
Proof.
  assert (H : ~ In (theme (State "sunset" 18 false false true)) themes).
  { simpl. intros [H|[H|[H|[]]]]; discriminate H. }
  split; [exact H|].
  exact (proj1 (proj2 (unknown_theme_keeps_palette
    (State "sunset" 18 false false true)
    (themeEffect (State "ocean" 16 false false true) ∅) H))).
Defined.

(** ** Presets, setters, toggle (C6, C8, C9) *)

(** C6: from any state, "Quiet Mode" leaves simplified and reduceMotion
    on and sparkles off, "Playful Mode" the opposite; theme and font size
    are kept, and a second press changes nothing. *)
Theorem presets_fixed_and_idempotent (s : state) (e e' : target) :
  fire OnClickQuietMode e s
    = {| theme := theme s; fontSize := fontSize s; reduceMotion := true;
         simplified := true; sparklesOn := false |}
  /\ fire OnClickPlayfulMode e s
       = {| theme := theme s; fontSize := fontSize s; reduceMotion := false;
            simplified := false; sparklesOn := true |}
  /\ fire OnClickQuietMode e' (fire OnClickQuietMode e s)
       = fire OnClickQuietMode e s
  /\ fire OnClickPlayfulMode e' (fire OnClickPlayfulMode e s)
       = fire OnClickPlayfulMode e s.
Proof. by destruct s. Qed.

(** C8: each setter replaces its own cell by the next value and leaves the
    other four cells as they were. *)
Theorem setters_change_own_cell_only (s : state) :
  (forall a, setTheme a s
     = {| theme := nextValue a (theme s); fontSize := fontSize s;
          reduceMotion := reduceMotion s; simplified := simplified s;
          sparklesOn := sparklesOn s |}
     /\ fontSize (setTheme a s) = fontSize s
     /\ reduceMotion (setTheme a s) = reduceMotion s
     /\ simplified (setTheme a s) = simplified s
     /\ sparklesOn (setTheme a s) = sparklesOn s)
  /\ (forall a, fontSize (setFontSize a s) = nextValue a (fontSize s)
     /\ theme (setFontSize a s) = theme s
     /\ reduceMotion (setFontSize a s) = reduceMotion s
     /\ simplified (setFontSize a s) = simplified s
     /\ sparklesOn (setFontSize a s) = sparklesOn s)
  /\ (forall a, reduceMotion (setReduceMotion a s) = nextValue a (reduceMotion s)
     /\ theme (setReduceMotion a s) = theme s
     /\ fontSize (setReduceMotion a s) = fontSize s
     /\ simplified (setReduceMotion a s) = simplified s
     /\ sparklesOn (setReduceMotion a s) = sparklesOn s)
  /\ (forall a, simplified (setSimplified a s) = nextValue a (simplified s)
     /\ theme (setSimplified a s) = theme s
     /\ fontSize (setSimplified a s) = fontSize s
     /\ reduceMotion (setSimplified a s) = reduceMotion s
     /\ sparklesOn (setSimplified a s) = sparklesOn s)
  /\ (forall a, sparklesOn (setSparklesOn a s) = nextValue a (sparklesOn s)
     /\ theme (setSparklesOn a s) = theme s
     /\ fontSize (setSparklesOn a s) = fontSize s
     /\ reduceMotion (setSparklesOn a s) = reduceMotion s
     /\ simplified (setSparklesOn a s) = simplified s).
Proof. repeat split. Qed.

(** C9: the sparkles button negates sparklesOn, keeps the other cells,
    and two presses in a row give back the state they started from. *)
Theorem sparkles_button_is_involution (s : state) (e e' : target) (w : world) :
  sparklesOn (fire OnClickSparkles e s) = negb (sparklesOn s)
  /\ fire OnClickSparkles e' (fire OnClickSparkles e s) = s
  /\ cells (run w [UserEvent OnClickSparkles e; UserEvent OnClickSparkles e'])
       = cells w.
Proof.
  split; [done|]. split.
  - destruct s as [th fs rm si sp]. cbn. unfold setSparklesOn. cbn.
    by rewrite negb_involutive.
  - cbn. rewrite !cells_commit. destruct (cells w) as [th fs rm si sp].
    cbn. unfold setSparklesOn. cbn. by rewrite negb_involutive.
Qed.

(** ** Mount (C7) *)

(** C7: after the mount the cells hold calm, 16, not simplified, sparkles
    on, and reduceMotion holds the host's reduced-motion signal as read at
    that moment; later changes of the host setting leave every cell as it
    is, and in any trace they can be dropped without changing the cells. *)
Theorem mount_seeds_reduceMotion_once
    (m : bool) (root : style) (ms : list bool) (evs : list event) :
  cells (mount m root)
    = {| theme := "calm"; fontSize := 16; reduceMotion := m;
         simplified := false; sparklesOn := true |}
  /\ cells (run (mount m root) (map MediaChange ms)) = cells (mount m root)
  /\ cells (run (mount m root) evs)
       = cells (run (mount m root) (List.filter isUserEvent evs)).
Proof.
  split; [by destruct m|]. split.
  - generalize (mount m root). induction ms as [|b ms IH]; intros w; [done|].
    cbn [map run fold_left]. fold (run (step w (MediaChange b)) (map MediaChange ms)).
    by rewrite IH.
  - by apply run_ignores_media.
Qed.

(** * Further properties of the component *)

(** ** Root style in closed form *)

Lemma themeEffect_deps (s s' : state) (root : style) :
  deps s = deps s' -> themeEffect s root = themeEffect s' root.
Proof. unfold deps, themeEffect. by intros [= -> ->]. Qed.

Lemma themeEffect_frame (s : state) (root : style) (name : string) :
  ~ In name effectVars -> themeEffect s root !! name = root !! name.
Proof.
  unfold effectVars. simpl. intros H.
  unfold themeEffect, setProperty.
  repeat case_match; rewrite !lookup_insert; repeat case_decide; tauto.
Qed.

Lemma themeEffect_overwrites (s s' : state) (root : style) :
  In (theme s') themes ->
  themeEffect s' (themeEffect s root) = themeEffect s' root.
Proof.
  unfold themes. simpl. intros [H|[H|[H|[]]]];
    unfold themeEffect at 1 3; rewrite <- H; simpl;
    unfold themeEffect, setProperty;
    repeat case_match;
    apply map_eq; intros k; rewrite !lookup_insert; repeat case_decide; done.
Qed.

Lemma fire_theme_known (h : handler) (e : target) (s : state) :
  In (theme s) themes -> In (theme (fire h e s)) themes.
Proof. intros H. destruct (fire_theme h e s) as [->|]; done. Qed.

Lemma mount_tracked (m : bool) (root : style) : tracked root (mount m root).
Proof.
  unfold tracked, mount. cbn [cells rootStyle lastDeps].
  split; [destruct m; simpl; auto|]. split; [by destruct m|].
  apply themeEffect_deps. by destruct m.
Qed.

Lemma step_tracked (root : style) (w : world) (ev : event) :
  tracked root w -> tracked root (step w ev).
Proof.
  intros (Hth & Hd & Hr). destruct ev as [h e|m]; [|done].
  cbn [step]. unfold commit, tracked. destruct (deps_eqb _ _) eqn:E;
    cbn [cells rootStyle lastDeps];
    (split; [by apply fire_theme_known|]).
  - apply deps_eqb_eq in E. split; [done|].
    rewrite Hr. apply themeEffect_deps. congruence.
  - split; [done|]. rewrite Hr. apply themeEffect_overwrites.
    by apply fire_theme_known.
Qed.

Lemma run_tracked (root : style) (w : world) (evs : list event) :
  tracked root w -> tracked root (run w evs).
Proof.
  revert w. induction evs as [|ev evs IH]; intros w Hw; [done|].
  apply (IH (step w ev)), step_tracked, Hw.
Qed.

(** X1: the root style does not depend on the path.  After any trace from
    a mount on [root], it is what one run of the theme effect with the
    current cells writes onto [root]. *)
Theorem rootStyle_closed_form (m : bool) (root : style) (evs : list event) :
  rootStyle (run (mount m root) evs)
    = themeEffect (cells (run (mount m root) evs)) root.
Proof. apply (run_tracked root _ evs (mount_tracked m root)). Qed.

(** X2: the component never touches a property of the root style other
    than its four variables: whatever the page had there before the mount
    is read back unchanged after any trace. *)
Theorem rootStyle_other_properties_kept
    (m : bool) (root : style) (evs : list event) (name : string) :
  ~ In name effectVars ->
  rootStyle (run (mount m root) evs) !! name = root !! name.
Proof.
  intros H.
  destruct (run_tracked root _ evs (mount_tracked m root)) as (_ & _ & ->).
  by apply themeEffect_frame.
Qed.

Lemma rootStyle_other_properties_kept_witness :
  ~ In "--brand" effectVars
  /\ rootStyle (run (mount true {["--brand" := "#123456"]})
                  [click OnClickContrast; slide 22; click OnClickQuietMode])
       !! "--brand" = Some "#123456".
Proof.
  assert (H : ~ In "--brand" effectVars).
  { simpl. intros [H|[H|[H|[H|[]]]]]; discriminate H. }
  split; [exact H|].
  rewrite (rootStyle_other_properties_kept true {["--brand" := "#123456"]}
             [click OnClickContrast; slide 22; click OnClickQuietMode]
             "--brand" H).
  reflexivity.
Defined.

(** X3: skipping the theme effect when [theme] and [fontSize] are
    unchanged cannot be observed.  In every reachable world, the root
    style after a user event is what running the effect unconditionally
    on the new cells would have produced. *)
Theorem effect_skip_unobservable
    (m : bool) (root : style) (evs : list event) (h : handler) (e : target) :
  rootStyle (step (run (mount m root) evs) (UserEvent h e))
    = themeEffect (fire h e (cells (run (mount m root) evs)))
        (rootStyle (run (mount m root) evs)).
Proof.
  pose proof (run_tracked root _ evs (mount_tracked m root)) as Hw.
  pose proof (step_tracked root _ (UserEvent h e) Hw) as (Hth & _ & ->).
  destruct Hw as (_ & _ & ->).
  cbn [step] in *. rewrite cells_commit in *.
  symmetry. by apply themeEffect_overwrites.
Qed.

(** X4: the theme effect is idempotent for every value of the theme cell,
    also one outside the three names: a second run in a row (as a
    development build does on mount) leaves the root style of the first. *)
Theorem themeEffect_idempotent (s : state) (root : style) :
  themeEffect s (themeEffect s root) = themeEffect s root.
Proof.
  unfold themeEffect, setProperty.
  repeat case_match;
    apply map_eq; intros k; rewrite !lookup_insert; repeat case_decide; done.
Qed.

(** X5: a handler that writes neither the theme cell nor the font-size
    cell (the checkboxes, the sparkles button, the two presets) leaves the
    whole root style as it is, in every reachable world. *)
Theorem flag_handlers_keep_rootStyle
    (m : bool) (root : style) (evs : list event) (h : handler) (e : target) :
  writesCell h ThemeCell = false -> writesCell h FontSizeCell = false ->
  rootStyle (step (run (mount m root) evs) (UserEvent h e))
    = rootStyle (run (mount m root) evs).
Proof.
  intros Ht Hf.
  destruct (run_tracked root _ evs (mount_tracked m root)) as (_ & Hd & _).
  cbn [step]. unfold commit.
  assert (E : deps (fire h e (cells (run (mount m root) evs)))
              = lastDeps (run (mount m root) evs)).
  { rewrite Hd. by destruct h. }
  apply deps_eqb_eq in E. by rewrite E.
Qed.

Lemma flag_handlers_keep_rootStyle_witness :
  writesCell OnClickQuietMode ThemeCell = false
  /\ writesCell OnClickQuietMode FontSizeCell = false
  /\ rootStyle (step (run (mount false ∅) [click OnClickOcean; slide 20])
                  (UserEvent OnClickQuietMode (Target false 0)))
     = rootStyle (run (mount false ∅) [click OnClickOcean; slide 20]).
Proof.
  split; [reflexivity|]. split; [reflexivity|].
  exact (flag_handlers_keep_rootStyle false ∅ [click OnClickOcean; slide 20]
           OnClickQuietMode (Target false 0) eq_refl eq_refl).
Defined.

(** ** Handlers as operations on the cells *)

(** The table [writes] is sound: a handler changes no cell outside it. *)
Lemma writes_sound (h : handler) (e : target) (s : state) (c : cell) :
  writesCell h c = false -> readCell c (fire h e s) = readCell c s.
Proof. destruct h, c; simpl; intros H; try discriminate H; reflexivity. Qed.

(** X6: two handlers that set disjoint cells commute. *)
Theorem disjoint_handlers_commute
    (h1 h2 : handler) (e1 e2 : target) (s : state) :
  disjointWrites h1 h2 = true ->
  fire h1 e1 (fire h2 e2 s) = fire h2 e2 (fire h1 e1 s).
Proof. destruct h1, h2; simpl; intros H; try discriminate H; reflexivity. Qed.

Lemma disjoint_handlers_commute_witness :
  disjointWrites OnClickQuietMode OnChangeFontSize = true
  /\ fire OnClickQuietMode (Target false 0)
       (fire OnChangeFontSize (Target false 24) initialState)
     = fire OnChangeFontSize (Target false 24)
         (fire OnClickQuietMode (Target false 0) initialState).
Proof.
  split; [reflexivity|].
  exact (disjoint_handlers_commute OnClickQuietMode OnChangeFontSize
           (Target false 0) (Target false 24) initialState eq_refl).
Defined.

(** X7: the later handler wins.  When a handler passes plain values and
    sets every cell an earlier handler set, the earlier one leaves no
    trace: a preset erases earlier checkbox and sparkles changes and an
    earlier preset, a theme button erases the earlier theme. *)
Theorem later_handler_wins
    (h1 h2 : handler) (e1 e2 : target) (s : state) :
  usesUpdater h2 = false -> coveredWrites h1 h2 = true ->
  fire h2 e2 (fire h1 e1 s) = fire h2 e2 s.
Proof.
  destruct h1, h2; simpl; intros Hu Hc; try discriminate Hu;
    try discriminate Hc; reflexivity.
Qed.

Lemma later_handler_wins_witness :
  usesUpdater OnClickPlayfulMode = false
  /\ coveredWrites OnClickSparkles OnClickPlayfulMode = true
  /\ fire OnClickPlayfulMode (Target false 0)
       (fire OnClickSparkles (Target false 0) initialState)
     = fire OnClickPlayfulMode (Target false 0) initialState.
Proof.
  split; [reflexivity|]. split; [reflexivity|].
  exact (later_handler_wins OnClickSparkles OnClickPlayfulMode
           (Target false 0) (Target false 0) initialState eq_refl eq_refl).
Defined.

(** ** Which configurations can be reached *)

Lemma themeButton_sets (th : string) (e : target) (s : state) :
  In th themes -> theme (fire (themeButton th) e s) = th.
Proof. unfold themes. simpl. intros [<-|[<-|[<-|[]]]]; reflexivity. Qed.

Lemma cells_step (w : world) (h : handler) (e : target) :
  cells (step w (UserEvent h e)) = fire h e (cells w).
Proof. apply cells_commit. Qed.

Lemma themeButton_keeps_sparkles (th : string) (e : target) (s : state) :
  sparklesOn (fire (themeButton th) e s) = sparklesOn s.
Proof. unfold themeButton. by repeat case_match. Qed.

Lemma route_arrives (w : world) (s' : state) :
  In (theme s') themes -> cells (run w (route (cells w) s')) = s'.
Proof.
  intros Hth. unfold route. rewrite run_app.
  destruct s' as [th fs rm si sp].
  cbn [theme fontSize reduceMotion simplified sparklesOn] in *.
  pose proof (themeButton_sets th (Target false 0) (cells w) Hth) as Hb.
  pose proof (themeButton_keeps_sparkles th (Target false 0) (cells w)) as Hs.
  unfold run at 2. cbn [fold_left].
  destruct (Bool.eqb (sparklesOn (cells w)) sp) eqn:E; unfold run;
    cbn [fold_left]; rewrite !cells_step; cbn [fire checked value];
    unfold setSparklesOn, setReduceMotion, setSimplified, setFontSize;
    cbn [theme fontSize reduceMotion simplified sparklesOn nextValue];
    rewrite Hb, Hs; f_equal.
  - by apply Bool.eqb_prop in E.
  - by destruct (sparklesOn (cells w)), sp.
Qed.

Lemma route_respects_slider (from to : state) :
  inRange (fontSize to) -> Forall sliderRespected (route from to).
Proof.
  intros H. unfold route. apply Forall_app. split.
  - constructor; [unfold themeButton; by repeat case_match|].
    constructor; [exact H|]. by repeat constructor.
  - destruct (Bool.eqb _ _); by repeat constructor.
Qed.

(** X8: the configurations a user can reach are exactly those with one of
    the three theme names and a font size in the slider's range, with any
    values of the three flags; each is at most five events away from any
    reachable world. *)
Theorem reachable_configurations (m : bool) (root : style) (s' : state) :
  (exists evs, Forall sliderRespected evs
               /\ cells (run (mount m root) evs) = s')
  <-> (In (theme s') themes /\ inRange (fontSize s')).
Proof.
  split.
  - intros (evs & Hevs & <-). split.
    + apply (run_tracked root _ evs (mount_tracked m root)).
    + apply run_inRange; [|done]. destruct m; by vm_compute.
  - intros [Hth Hfs]. exists (route (cells (mount m root)) s'). split.
    + by apply route_respects_slider.
    + by apply route_arrives.
Qed.

(** X9: from any world, a state with one of the three theme names and a
    font size in the slider's range is reached by a trace the page can
    receive of at most five events: a theme button, the slider, the two
    checkboxes and at most one press of the sparkles button. *)
Theorem five_events_suffice (w : world) (s' : state) :
  In (theme s') themes -> inRange (fontSize s') ->
  cells (run w (route (cells w) s')) = s'
  /\ (length (route (cells w) s') <= 5)%nat
  /\ Forall sliderRespected (route (cells w) s').
Proof.
  intros Hth Hfs. split; [by apply route_arrives|]. split.
  - unfold route. rewrite length_app. destruct (Bool.eqb _ _); simpl; lia.
  - by apply route_respects_slider.
Qed.

Lemma five_events_suffice_witness :
  In (theme (State "contrast" 28 true true false)) themes
  /\ inRange (fontSize (State "contrast" 28 true true false))
  /\ cells (run (mount false ∅)
              (route (cells (mount false ∅)) (State "contrast" 28 true true false)))
     = State "contrast" 28 true true false.
Proof.
  assert (H : In (theme (State "contrast" 28 true true false)) themes)
    by (simpl; auto).
  assert (H' : inRange (fontSize (State "contrast" 28 true true false)))
    by (unfold inRange, sliderMin, sliderMax; simpl; lia).
  split; [exact H|]. split; [exact H'|].
  exact (proj1 (five_events_suffice (mount false ∅)
                  (State "contrast" 28 true true false) H H')).
Defined.

(** ** The render tree *)

(** X10: the tree depends on the theme only through the test
    [theme === 'ocean']; the colours travel through the root style.  Two
    states that agree on that test and on the other four cells render the
    same tree. *)
Theorem render_reads_theme_as_ocean_test (s s' : state) :
  String.eqb (theme s) "ocean" = String.eqb (theme s') "ocean" ->
  fontSize s = fontSize s' -> reduceMotion s = reduceMotion s' ->
  simplified s = simplified s' -> sparklesOn s = sparklesOn s' ->
  render s = render s'.
Proof.
  intros Hth Hfs Hrm Hsi Hsp.
  unfold render, Page.header, Page.welcome, Page.decorativeArea.
  by rewrite Hth, Hfs, Hrm, Hsi, Hsp.
Qed.

Lemma render_reads_theme_as_ocean_test_witness :
  render (State "calm" 18 false true true)
    = render (State "contrast" 18 false true true).
Proof.
  exact (render_reads_theme_as_ocean_test
           (State "calm" 18 false true true) (State "contrast" 18 false true true)
           eq_refl eq_refl eq_refl eq_refl eq_refl).
Defined.

(** X11: in every state the tree carries each of the nine handlers exactly
    once, in source order: no control disappears in simplified or quiet
    mode.  Eight of them are outside every aria-hidden subtree; the
    checkbox of "Simplified" sits in a label marked aria-hidden. *)
Theorem controls_always_rendered (s : state) :
  handlersOf (render s)
    = [OnChangeSimplified; OnChangeReduceMotion; OnClickSparkles;
       OnClickCalm; OnClickOcean; OnClickContrast; OnChangeFontSize;
       OnClickQuietMode; OnClickPlayfulMode]
  /\ exposedHandlers (render s)
       = [OnChangeReduceMotion; OnClickSparkles;
          OnClickCalm; OnClickOcean; OnClickContrast; OnChangeFontSize;
          OnClickQuietMode; OnClickPlayfulMode].
Proof.
  destruct s as [th fs rm si sp]. destruct rm, si, sp; by vm_compute.
Qed.

(** X12: the controls display the cells.  Read back from the tree of any
    state, the slider value, the two checkboxes and the pressed state of
    the sparkles button are the font size, reduceMotion, simplified and
    sparklesOn cells. *)
Theorem controls_display_cells (s : state) :
  readControls (render s)
    = Some (fontSize s, reduceMotion s, simplified s, sparklesOn s).
Proof.
  destruct s as [th fs rm si sp]. destruct rm, si, sp; by vm_compute.
Qed.

(** X13: the page animates exactly when it is neither simplified nor in
    reduced motion; the sparkles cell and the theme play no part. *)
Theorem page_animates_iff (s : state) :
  animated (render s) = negb (simplified s) && negb (reduceMotion s).
Proof.
  destruct s as [th fs rm si sp]. destruct rm, si, sp; by vm_compute.
Qed.

(** X14: the cat, the moon, the shark and every sparkle only ever occur
    below an aria-hidden element; the ocean wave, when drawn, does not:
    [OceanWaves] is the one decorative component without aria-hidden. *)
Theorem decorations_aria_hidden (s : state) :
  exposed CatBody s = false /\ exposed CatSparkles s = false
  /\ exposed MoonDisc s = false /\ exposed MoonHighlight s = false
  /\ exposed SharkBody s = false /\ exposed SharkSparkles s = false
  /\ exposed PageSparkles s = false
  /\ exposed OceanWave s = negb (simplified s).
Proof.
  destruct s as [th fs rm si sp]. destruct rm, si, sp; by vm_compute.
Qed.

(** X15: what the two presets do to the page, from any state.  After
    "Playful Mode" every decoration is in the tree and the page animates;
    after "Quiet Mode" only the base drawings of the cat, the moon and the
    shark are left and nothing animates. *)
Theorem presets_on_page (s : state) (e : target) (d : decoration) :
  visible d (fire OnClickPlayfulMode e s) = true
  /\ animated (render (fire OnClickPlayfulMode e s)) = true
  /\ visible d (fire OnClickQuietMode e s)
       = match d with
         | CatBody | MoonDisc | SharkBody => true
         | _ => false
         end
  /\ animated (render (fire OnClickQuietMode e s)) = false.
Proof. destruct s as [th fs rm si sp]. destruct d; by vm_compute. Qed.
